(** * openssh_loee: the launcher of the bundled ssh binary

    A shallow embedding of [src/packaging/openssh_loee/__init__.py]:
    [_bin_dir], [ssh_path] and [main], over a model of the pieces of the
    Python runtime they call ([os.path.dirname], [os.path.join],
    [os.path.isfile], [print(..., file=sys.stderr)], [sys.exit] and
    [os.execvp]) and of what the interpreter does with the outcome of
    [main] (exit status, replaced process image). *)

From Stdlib Require Import String Ascii List Bool ZArith Lia.
Import ListNotations.
Open Scope string_scope.

(** ** POSIX paths ([posixpath]) *)
Module PosixPath.

Definition sep : ascii := "/"%char.

Definition is_sep (c : ascii) : bool := Ascii.eqb c sep.

(** [s.startswith('/')] *)
Definition startswith_sep (s : string) : bool :=
  match s with
  | EmptyString => false
  | String c _ => is_sep c
  end.

(** [s.endswith('/')] *)
Fixpoint endswith_sep (s : string) : bool :=
  match s with
  | EmptyString => false
  | String c s' =>
      match s' with
      | EmptyString => is_sep c
      | String _ _ => endswith_sep s'
      end
  end.

(** [posixpath.join(a, *p)]:
    [for b in p: if b.startswith(sep): path = b
                 elif not path or path.endswith(sep): path += b
                 else: path += sep + b] *)
Definition join_one (path b : string) : string :=
  if startswith_sep b then b
  else if (path =? "") || endswith_sep path then path ++ b
  else path ++ String sep b.

Definition join (a : string) (p : list string) : string :=
  fold_left join_one p a.

(** [p.rfind(sep) + 1]: the index just after the last separator, 0 if none. *)
Fixpoint rfind_sep_end_aux (s : string) (pos acc : nat) : nat :=
  match s with
  | EmptyString => acc
  | String c s' =>
      rfind_sep_end_aux s' (S pos) (if is_sep c then S pos else acc)
  end.

Definition rfind_sep_end (s : string) : nat := rfind_sep_end_aux s 0 0.

(** [head == sep * len(head)] *)
Fixpoint all_sep (s : string) : bool :=
  match s with
  | EmptyString => true
  | String c s' => is_sep c && all_sep s'
  end.

(** Drop the leading separators of a character list. *)
Fixpoint skip_seps (l : list ascii) : list ascii :=
  match l with
  | [] => []
  | c :: l' => if is_sep c then skip_seps l' else l
  end.

(** [s.rstrip(sep)] *)
Definition rstrip_sep (s : string) : string :=
  string_of_list_ascii (rev (skip_seps (rev (list_ascii_of_string s)))).

(** [posixpath.dirname(p)]:
    [i = p.rfind(sep) + 1; head = p[:i]
     if head and head != sep*len(head): head = head.rstrip(sep)
     return head] *)
Definition dirname (p : string) : string :=
  let head := substring 0 (rfind_sep_end p) p in
  if negb (head =? "") && negb (all_sep head) then rstrip_sep head else head.

(** [s.split(':')]; the empty string splits to [[""]]. *)
Fixpoint split_colon (s : string) : list string :=
  match s with
  | EmptyString => [""]
  | String c s' =>
      if Ascii.eqb c ":"%char then "" :: split_colon s'
      else match split_colon s' with
           | [] => [String c ""]
           | w :: ws => String c w :: ws
           end
  end.

End PosixPath.

Import PosixPath.

(** ** The process and the Python runtime *)

(** The kind of the file a path names, after following symbolic links
    (what [os.stat] reports). *)
Inductive kind := Regular | Directory | Special.

Definition kind_eqb (a b : kind) : bool :=
  match a, b with
  | Regular, Regular | Directory, Directory | Special, Special => true
  | _, _ => false
  end.

(** [i_exec]: what [execve] of this file returns when the file is regular:
    [None] when it succeeds, [Some errno] when the kernel refuses it, with the
    errno it picks by cause ([EACCES] without execute permission, [ENOEXEC]
    for a format it cannot load, [ENOENT] for a missing interpreter,
    [ETXTBSY] for a file open for writing, ...). *)
Record inode := mk_inode { i_kind : kind; i_exec : option Z }.

(** The process as the launcher sees it: the module's [__file__], [sys.argv],
    the working directory, [os.environ], the filesystem (absolute path to
    the file reached from it), and what was written to stdout and stderr. *)
Record state := mk_state {
  mod_file : string;
  sys_argv : list string;
  cwd : string;
  environ : list (string * string);
  fs : string -> option inode;
  out : string;
  err : string
}.

Definition set_err (st : state) (e : string) : state :=
  mk_state (mod_file st) (sys_argv st) (cwd st) (environ st) (fs st) (out st) e.

Definition ENOENT : Z := 2.
Definition ENOEXEC : Z := 8.
Definition EACCES : Z := 13.
Definition ENOTDIR : Z := 20.

Inductive exn :=
| SystemExit (code : Z)
| OSError (errno : Z)
| ValueError (msg : string).

(** How a Python computation ends: a value, an exception, or the process
    image replaced by [execve] (nothing after it runs). *)
Inductive comp (A : Type) :=
| Ok (a : A)
| Raise (e : exn)
| Replaced (path : string) (args : list string) (envp : list (string * string)).
Arguments Ok {A} a.
Arguments Raise {A} e.
Arguments Replaced {A} path args envp.

Definition M (A : Type) : Type := state -> comp A * state.

Definition ret {A} (a : A) : M A := fun st => (Ok a, st).

Definition bind {A B} (m : M A) (k : A -> M B) : M B := fun st =>
  match m st with
  | (Ok a, st') => k a st'
  | (Raise e, st') => (Raise e, st')
  | (Replaced p a v, st') => (Replaced p a v, st')
  end.

Notation "x <- m ;; k" := (bind m (fun x => k))
  (at level 61, m at next level, right associativity).
Notation "m ;;; k" := (bind m (fun _ => k))
  (at level 61, right associativity).

Definition raise {A} (e : exn) : M A := fun st => (Raise e, st).

Definition get_file : M string := fun st => (Ok (mod_file st), st).
Definition get_argv : M (list string) := fun st => (Ok (sys_argv st), st).

(** Path resolution by the kernel: relative paths start at the cwd. *)
Definition resolve (st : state) (p : string) : string :=
  if startswith_sep p then p else join (cwd st) [p].

(** [os.path.isfile(p)]: [os.stat] then [S_ISREG]; [False] when stat fails. *)
Definition isfile (p : string) : M bool := fun st =>
  (Ok match fs st (resolve st p) with
      | Some i => kind_eqb (i_kind i) Regular
      | None => false
      end, st).

Definition nl : string := String (ascii_of_nat 10) EmptyString.

(** [print(s, file=sys.stderr)] *)
Definition print_err (s : string) : M unit := fun st =>
  (Ok tt, set_err st (err st ++ s ++ nl)).

(** [sys.exit(n)] *)
Definition sys_exit {A} (n : Z) : M A := raise (SystemExit n).

(** [os.execv(path, args)]: the argument checks of CPython, then [execve]
    with the current environment; on failure [OSError(errno)] with the errno
    of [execve] ([ENOENT] for no file, [EACCES] for a file that is not
    regular, the file's own [i_exec] errno for a regular one). *)
Definition execv (path : string) (args : list string) : M unit := fun st =>
  match args with
  | [] => (Raise (ValueError "execv() arg 2 must not be empty"), st)
  | a0 :: _ =>
      if a0 =? "" then
        (Raise (ValueError "execv() arg 2 first element cannot be empty"), st)
      else
        match fs st (resolve st path) with
        | None => (Raise (OSError ENOENT), st)
        | Some i =>
            if kind_eqb (i_kind i) Regular then
              match i_exec i with
              | None => (Replaced path args (environ st), st)
              | Some en => (Raise (OSError en), st)
              end
            else (Raise (OSError EACCES), st)
        end
  end.

(** [os.get_exec_path()]: [PATH] split on [':'], [os.defpath] when unset. *)
Definition get_exec_path (env : list (string * string)) : list string :=
  match find (fun kv => fst kv =? "PATH") env with
  | Some (_, v) => split_colon v
  | None => split_colon "/bin:/usr/bin"
  end.

(** The [PATH] loop of [os._execvpe]: [FileNotFoundError] and
    [NotADirectoryError] are remembered as [last_exc], other [OSError]s also
    as [saved_exc] (the first one); after the loop [saved_exc] is raised if
    set, else [last_exc]. *)
Fixpoint execvp_search (dirs : list string) (file : string) (args : list string)
    (saved last : option exn) : M unit := fun st =>
  match dirs with
  | [] =>
      match saved, last with
      | Some e, _ => (Raise e, st)
      | None, Some e => (Raise e, st)
      | None, None => (Raise (OSError ENOENT), st)  (* empty path list *)
      end
  | d :: ds =>
      match execv (join d [file]) args st with
      | (Raise (OSError en as e), st') =>
          if Z.eqb en ENOENT || Z.eqb en ENOTDIR
          then execvp_search ds file args saved (Some e) st'
          else execvp_search ds file args
                 (match saved with None => Some e | Some _ => saved end)
                 (Some e) st'
      | r => r
      end
  end.

(** [os.execvp(file, args)] = [os._execvpe(file, args)]:
    [if path.dirname(file): execv(file, args); return], else the [PATH]
    search. *)
Definition execvp (file : string) (args : list string) : M unit := fun st =>
  if negb (dirname file =? "") then execv file args st
  else execvp_search (get_exec_path (environ st)) file args None None st.

(** ** The launcher, [src/packaging/openssh_loee/__init__.py] *)

(** [def _bin_dir(): return os.path.join(os.path.dirname(__file__), "bin")] *)
Definition _bin_dir : M string :=
  f <- get_file ;; ret (join (dirname f) ["bin"]).

(** [def ssh_path(): return os.path.join(_bin_dir(), "ssh")] *)
Definition ssh_path : M string :=
  d <- _bin_dir ;; ret (join d ["ssh"]).

(** [def main():
        binary = ssh_path()
        if not os.path.isfile(binary):
            print(f"Error: ssh binary not found at {binary}", file=sys.stderr)
            sys.exit(1)
        os.execvp(binary, [binary] + sys.argv[1:])] *)
Definition main : M unit :=
  binary <- ssh_path ;;
  present <- isfile binary ;;
  (if negb present then
     print_err ("Error: ssh binary not found at " ++ binary) ;;;
     sys_exit 1
   else ret tt) ;;;
  argv <- get_argv ;;
  execvp binary ([binary] ++ skipn 1 argv).

(** ** The interpreter around [main] *)

(** How the process ends: its image replaced, or an exit status. *)
Inductive process_end :=
| Image (path : string) (args : list string) (envp : list (string * string))
        (st : state)
| Exit (status : Z) (st : state).

Definition exn_text (e : exn) : string :=
  match e with
  | SystemExit _ => "SystemExit"
  | OSError _ => "OSError"
  | ValueError m => "ValueError: " ++ m
  end.

(** The report the interpreter writes for an uncaught exception: a
    traceback header and the exception.  The frames and the message text of
    CPython's report are not modelled, and no property below states them. *)
Definition traceback (e : exn) : string :=
  "Traceback (most recent call last):" ++ nl ++ exn_text e ++ nl.

(** A normal return exits 0; [SystemExit(n)] exits [n] (modulo 256); any
    other uncaught exception prints a traceback to stderr and exits 1. *)
Definition run_toplevel (m : M unit) (st : state) : process_end :=
  match m st with
  | (Ok _, st') => Exit 0 st'
  | (Replaced p a v, st') => Image p a v st'
  | (Raise (SystemExit n), st') => Exit (Z.land n 255) st'
  | (Raise e, st') =>
      Exit 1 (set_err st' (err st' ++ traceback e))
  end.

(** The path [ssh_path] computes from the package location [P]:
    [P/bin/ssh] in the sense of [os.path.join], i.e. no separator is
    inserted after an empty [P] or one ending in ['/']. *)
Definition sep_after (P : string) : string :=
  if (P =? "") || endswith_sep P then "" else "/".

Definition binary_of (file : string) : string :=
  let P := dirname file in P ++ sep_after P ++ "bin/ssh".

Definition missing_msg (binary : string) : string :=
  "Error: ssh binary not found at " ++ binary.

(** Number of newline characters of a string. *)
Fixpoint count_nl (s : string) : nat :=
  match s with
  | EmptyString => 0
  | String c s' => (if Ascii.eqb c (ascii_of_nat 10) then 1 else 0) + count_nl s'
  end.

(** What [main] does, case by case. *)
Definition main_result (st : state) : comp unit * state :=
  let b := binary_of (mod_file st) in
  let missing := (Raise (SystemExit 1), set_err st (err st ++ missing_msg b ++ nl)) in
  match fs st (resolve st b) with
  | Some i =>
      if kind_eqb (i_kind i) Regular then
        match i_exec i with
        | None => (Replaced b (b :: skipn 1 (sys_argv st)) (environ st), st)
        | Some en => (Raise (OSError en), st)
        end
      else missing
  | None => missing
  end.

(** ** Concrete installations *)
Module Scenario.

(** A filesystem holding exactly one file, at [path]. *)
Definition fs_with (path : string) (i : inode) : string -> option inode :=
  fun p => if p =? path then Some i else None.

Definition no_files : string -> option inode := fun _ => None.

(** The package installed at [/opt/tool], run as [ssh-loee args...]. *)
Definition at_opt_tool (files : string -> option inode) (args : list string) : state :=
  mk_state "/opt/tool/__init__.py" ("ssh-loee" :: args) "/home/user"
    [("PATH", "/usr/bin:/bin")] files "" "".

(** The package installed under a directory whose name holds a newline. *)
Definition at_newline_dir : state :=
  mk_state ("/opt/a" ++ nl ++ "b/__init__.py") [] "/" [] no_files "" "".

Definition good_binary : inode := mk_inode Regular None.
Definition unexecutable_binary : inode := mk_inode Regular (Some EACCES).

(** A binary for another architecture: [execve] fails with [ENOEXEC]. *)
Definition foreign_binary : inode := mk_inode Regular (Some ENOEXEC).

(** [/opt/tool] with a regular, non-executable [bin/ssh] and no arguments. *)
Definition unexec_at_opt_tool : state :=
  at_opt_tool (fs_with "/opt/tool/bin/ssh" unexecutable_binary) [].

(** [/opt/tool] with a [bin/ssh] for another architecture, no arguments. *)
Definition foreign_at_opt_tool : state :=
  at_opt_tool (fs_with "/opt/tool/bin/ssh" foreign_binary) [].

(** [/opt/tool] without [bin/ssh] and no arguments. *)
Definition missing_at_opt_tool : state := at_opt_tool no_files [].

End Scenario.

(** The same process with another working directory or environment. *)
Definition with_cwd (st : state) (c : string) : state :=
  mk_state (mod_file st) (sys_argv st) c (environ st) (fs st) (out st) (err st).

Definition with_environ (st : state) (e : list (string * string)) : state :=
  mk_state (mod_file st) (sys_argv st) (cwd st) e (fs st) (out st) (err st).

(** Whether a string holds a ['/']. *)
Definition has_sep (s : string) : bool := existsb is_sep (list_ascii_of_string s).

(** ** Lemmas on strings and paths *)

Lemma str_app_assoc (a b c : string) : (a ++ b) ++ c = a ++ (b ++ c).
Proof. induction a as [|x a IH]; simpl; [reflexivity | now rewrite IH]. Qed.

Lemma str_app_nil_r (a : string) : a ++ "" = a.
Proof. induction a as [|x a IH]; simpl; [reflexivity | now rewrite IH]. Qed.

Lemma list_ascii_app (a b : string) :
  list_ascii_of_string (a ++ b) = (list_ascii_of_string a ++ list_ascii_of_string b)%list.
Proof. induction a as [|x a IH]; simpl; [reflexivity | now rewrite IH]. Qed.

Lemma string_of_list_app (a b : list ascii) :
  string_of_list_ascii (a ++ b) = string_of_list_ascii a ++ string_of_list_ascii b.
Proof. induction a as [|x a IH]; simpl; [reflexivity | now rewrite IH]. Qed.

Lemma endswith_sep_app (a : string) (c : ascii) (s : string) :
  endswith_sep (a ++ String c s) = endswith_sep (String c s).
Proof.
  induction a as [|x a IH]; [reflexivity|].
  simpl. destruct a as [|y a']; simpl in *; [reflexivity|]. exact IH.
Qed.

Lemma join_one_rel (p b : string) :
  startswith_sep b = false -> join_one p b = p ++ sep_after p ++ b.
Proof.
  intros Hb. unfold join_one, sep_after. rewrite Hb.
  destruct ((p =? "") || endswith_sep p); simpl; [reflexivity|].
  reflexivity.
Qed.

Lemma rfind_aux_app (a b : string) (pos acc : nat) :
  rfind_sep_end_aux (a ++ b) pos acc =
  rfind_sep_end_aux b (pos + String.length a) (rfind_sep_end_aux a pos acc).
Proof.
  revert pos acc. induction a as [|x a IH]; intros pos acc; simpl.
  - now rewrite Nat.add_0_r.
  - rewrite IH. now rewrite Nat.add_succ_r.
Qed.

Lemma substring_app (a b : string) (k : nat) :
  substring 0 (String.length a + k) (a ++ b) = a ++ substring 0 k b.
Proof.
  induction a as [|x a IH]; simpl; [reflexivity|]. now rewrite IH.
Qed.

Lemma all_sep_app (a b : string) : all_sep (a ++ b) = all_sep a && all_sep b.
Proof.
  induction a as [|x a IH]; simpl; [reflexivity|]. now rewrite IH, andb_assoc.
Qed.

(** The directory part of [Y/bin/ssh]-shaped paths is [Y/bin]. *)
Lemma dirname_bin_ssh (Y : string) :
  dirname (Y ++ "bin/ssh") = Y ++ "bin".
Proof.
  unfold dirname, rfind_sep_end.
  replace (Y ++ "bin/ssh") with ((Y ++ "bin") ++ "/ssh")
    by (rewrite str_app_assoc; reflexivity).
  rewrite rfind_aux_app.
  change (rfind_sep_end_aux "/ssh" (0 + String.length (Y ++ "bin")) ?acc)
    with (S (String.length (Y ++ "bin"))).
  rewrite <- Nat.add_1_r, substring_app. simpl.
  rewrite str_app_assoc, all_sep_app. simpl. rewrite andb_false_r. simpl.
  assert (Hne : ((Y ++ "bin/") =? "") = false).
  { destruct Y; reflexivity. }
  rewrite Hne. simpl.
  unfold rstrip_sep. rewrite list_ascii_app. simpl.
  rewrite rev_app_distr. simpl.
  rewrite rev_involutive, <- !app_assoc, string_of_list_app,
    string_of_list_ascii_of_string.
  reflexivity.
Qed.

Lemma binary_of_shape (f : string) :
  binary_of f = (dirname f ++ sep_after (dirname f)) ++ "bin/ssh".
Proof. unfold binary_of. now rewrite str_app_assoc. Qed.

Lemma binary_of_nonempty (f : string) : (binary_of f =? "") = false.
Proof.
  rewrite binary_of_shape. destruct (dirname f ++ sep_after (dirname f)); reflexivity.
Qed.

Lemma dirname_binary_of (f : string) : (dirname (binary_of f) =? "") = false.
Proof.
  rewrite binary_of_shape, dirname_bin_ssh.
  destruct (dirname f ++ sep_after (dirname f)); reflexivity.
Qed.

(** [ssh_path] reads [__file__] only, leaves the state as it is, and
    returns [binary_of __file__]. *)
Lemma ssh_path_eq (st : state) :
  ssh_path st = (Ok (binary_of (mod_file st)), st).
Proof.
  unfold ssh_path, _bin_dir, bind, get_file, ret, join. cbn [fold_left].
  rewrite (join_one_rel _ "bin") by reflexivity.
  set (Y := dirname (mod_file st) ++ sep_after (dirname (mod_file st))).
  assert (HX : dirname (mod_file st) ++ sep_after (dirname (mod_file st)) ++ "bin"
               = Y ++ "bin") by (unfold Y; now rewrite str_app_assoc).
  rewrite HX.
  assert (J : join_one (Y ++ "bin") "ssh" = (Y ++ "bin") ++ "/ssh").
  { unfold join_one. cbn [startswith_sep]. simpl is_sep. cbv iota.
    replace (((Y ++ "bin") =? "") || endswith_sep (Y ++ "bin")) with false.
    - reflexivity.
    - rewrite endswith_sep_app. destruct Y; reflexivity. }
  rewrite J, str_app_assoc. unfold binary_of, Y. now rewrite str_app_assoc.
Qed.

Lemma main_eq (st : state) : main st = main_result st.
Proof.
  unfold main. unfold bind at 1. rewrite ssh_path_eq.
  unfold main_result. set (b := binary_of (mod_file st)).
  unfold bind, isfile.
  destruct (fs st (resolve st b)) as [i|] eqn:Hfs.
  - destruct (kind_eqb (i_kind i) Regular) eqn:Hk; simpl.
    + unfold get_argv, execvp. simpl. unfold b. rewrite dirname_binary_of. simpl.
      unfold execv. rewrite binary_of_nonempty. fold b. rewrite Hfs, Hk. simpl.
      reflexivity.
    + reflexivity.
  - reflexivity.
Qed.

Lemma ssh_path_value (st : state) (b : string) :
  fst (ssh_path st) = Ok b -> b = binary_of (mod_file st).
Proof. rewrite ssh_path_eq. simpl. now intros [= ->]. Qed.

Lemma isfile_value (st : state) (b : string) (r : bool) :
  fst (isfile b st) = Ok r ->
  r = match fs st (resolve st b) with
      | Some i => kind_eqb (i_kind i) Regular
      | None => false
      end.
Proof. unfold isfile. simpl. now intros [= <-]. Qed.

(** The [MissingBinary] path of [main]. *)
Lemma main_missing (st : state) (b : string) :
  fst (ssh_path st) = Ok b -> fst (isfile b st) = Ok false ->
  main st = (Raise (SystemExit 1), set_err st (err st ++ missing_msg b ++ nl)).
Proof.
  intros Hb Hm. apply ssh_path_value in Hb. apply isfile_value in Hm. subst b.
  rewrite main_eq. unfold main_result.
  destruct (fs st (resolve st (binary_of (mod_file st)))) as [i|]; [|reflexivity].
  now rewrite <- Hm.
Qed.

(** When the path is a regular file, [main] is the call
    [os.execvp(binary, [binary] + sys.argv[1:])]. *)
Lemma main_present (st : state) (b : string) :
  fst (ssh_path st) = Ok b -> fst (isfile b st) = Ok true ->
  main st = execvp b ([b] ++ skipn 1 (sys_argv st)) st.
Proof.
  intros Hb Hp. unfold main. unfold bind at 1. rewrite ssh_path_eq.
  apply ssh_path_value in Hb. subst b.
  unfold bind. unfold isfile in *. simpl in Hp |- *. injection Hp as Hp.
  rewrite Hp. reflexivity.
Qed.

Lemma main_exec_ok (st : state) (b : string) (i : inode) :
  fst (ssh_path st) = Ok b -> fs st (resolve st b) = Some i ->
  i_kind i = Regular -> i_exec i = None ->
  main st = (Replaced b (b :: skipn 1 (sys_argv st)) (environ st), st).
Proof.
  intros Hb Hfs Hk Hx. apply ssh_path_value in Hb. subst b.
  rewrite main_eq. unfold main_result. rewrite Hfs, Hk, Hx. reflexivity.
Qed.

Lemma main_exec_fails (st : state) (b : string) (i : inode) (en : Z) :
  fst (ssh_path st) = Ok b -> fs st (resolve st b) = Some i ->
  i_kind i = Regular -> i_exec i = Some en ->
  main st = (Raise (OSError en), st).
Proof.
  intros Hb Hfs Hk Hx. apply ssh_path_value in Hb. subst b.
  rewrite main_eq. unfold main_result. rewrite Hfs, Hk, Hx. reflexivity.
Qed.

Lemma count_nl_app (a b : string) : count_nl (a ++ b) = count_nl a + count_nl b.
Proof. induction a as [|c a IH]; simpl; [reflexivity|]. rewrite IH. lia. Qed.

(** ** The claims *)

(** C1 (counterexample): a regular file at the binary path is not enough for
    the process image to be replaced: at [/opt/tool] with a regular but
    non-executable [bin/ssh], [isfile] holds and [main] raises [OSError]
    from [os.execvp] instead. *)
Lemma C1_regular_file_not_replaced :
  fst (isfile "/opt/tool/bin/ssh"
         (Scenario.at_opt_tool
            (Scenario.fs_with "/opt/tool/bin/ssh" Scenario.unexecutable_binary)
            ["user@host"; "-p"; "2222"])) = Ok true /\
  fst (main (Scenario.at_opt_tool
               (Scenario.fs_with "/opt/tool/bin/ssh" Scenario.unexecutable_binary)
               ["user@host"; "-p"; "2222"])) = Raise (OSError EACCES).
Proof. split; vm_compute; reflexivity. Qed.

(** C1 (amended): when the binary path is a regular file, [main] is the
    call [os.execvp(binary, [binary] + sys.argv[1:])]. If [execve] accepts
    the file, the process image is replaced by it, with that argv, the
    current environment and the process state (streams included) untouched;
    if it refuses the file, the [OSError] carrying the errno of [execve] is
    raised, with nothing printed. *)
Theorem C1_main_replaces_image (st : state) (b : string) (i : inode)
    (Hb : fst (ssh_path st) = Ok b)
    (Hfs : fs st (resolve st b) = Some i)
    (Hreg : i_kind i = Regular) :
  main st = execvp b ([b] ++ skipn 1 (sys_argv st)) st /\
  match i_exec i with
  | None => run_toplevel main st = Image b (b :: skipn 1 (sys_argv st)) (environ st) st
  | Some en => main st = (Raise (OSError en), st)
  end.
Proof.
  split.
  - apply (main_present st b Hb). unfold isfile. simpl. now rewrite Hfs, Hreg.
  - destruct (i_exec i) as [en|] eqn:Hx.
    + exact (main_exec_fails st b i en Hb Hfs Hreg Hx).
    + unfold run_toplevel. now rewrite (main_exec_ok st b i Hb Hfs Hreg Hx).
Qed.

(** Witness of C1: the [/opt/tool] scenario with [user@host -p 2222]. *)
Lemma C1_main_replaces_image_witness :
  main (Scenario.at_opt_tool (Scenario.fs_with "/opt/tool/bin/ssh" Scenario.good_binary)
          ["user@host"; "-p"; "2222"])
  = execvp "/opt/tool/bin/ssh" ["/opt/tool/bin/ssh"; "user@host"; "-p"; "2222"]
      (Scenario.at_opt_tool (Scenario.fs_with "/opt/tool/bin/ssh" Scenario.good_binary)
         ["user@host"; "-p"; "2222"]) /\
  run_toplevel main
    (Scenario.at_opt_tool (Scenario.fs_with "/opt/tool/bin/ssh" Scenario.good_binary)
       ["user@host"; "-p"; "2222"])
  = Image "/opt/tool/bin/ssh" ["/opt/tool/bin/ssh"; "user@host"; "-p"; "2222"]
      [("PATH", "/usr/bin:/bin")]
      (Scenario.at_opt_tool (Scenario.fs_with "/opt/tool/bin/ssh" Scenario.good_binary)
         ["user@host"; "-p"; "2222"]).
Proof.
  exact (C1_main_replaces_image
           (Scenario.at_opt_tool (Scenario.fs_with "/opt/tool/bin/ssh" Scenario.good_binary)
              ["user@host"; "-p"; "2222"])
           "/opt/tool/bin/ssh" Scenario.good_binary
           ltac:(vm_compute; reflexivity) ltac:(vm_compute; reflexivity) eq_refl).
Defined.

(** C2: when the binary path is not a regular file, [main] writes a non-empty
    message containing the path to stderr and raises [SystemExit(1)] before
    any [execvp]; the process exits with status 1. *)
Theorem C2_missing_binary_exits_1 (st : state) (b : string)
    (Hb : fst (ssh_path st) = Ok b)
    (Hmiss : fst (isfile b st) = Ok false) :
  main st = (Raise (SystemExit 1), set_err st (err st ++ missing_msg b ++ nl)) /\
  run_toplevel main st = Exit 1 (set_err st (err st ++ missing_msg b ++ nl)) /\
  missing_msg b ++ nl <> "" /\
  (exists pre post, missing_msg b ++ nl = pre ++ b ++ post).
Proof.
  pose proof (main_missing st b Hb Hmiss) as Hm.
  split; [exact Hm|]. split.
  - unfold run_toplevel. now rewrite Hm.
  - split; [unfold missing_msg; simpl; discriminate|].
    exists "Error: ssh binary not found at ", nl.
    unfold missing_msg. now rewrite str_app_assoc.
Qed.

(** Witness of C2: [/opt/tool] with no binary. *)
Lemma C2_missing_binary_exits_1_witness :
  run_toplevel main (Scenario.at_opt_tool Scenario.no_files [])
  = Exit 1 (set_err (Scenario.at_opt_tool Scenario.no_files [])
              (missing_msg "/opt/tool/bin/ssh" ++ nl)).
Proof.
  refine (proj1 (proj2 (C2_missing_binary_exits_1
            (Scenario.at_opt_tool Scenario.no_files []) "/opt/tool/bin/ssh" _ _)));
    vm_compute; reflexivity.
Defined.

(** C3: [ssh_path] always succeeds, changes nothing, and returns
    [os.path.join(P, "bin", "ssh")] for [P = dirname(__file__)]: a function of
    [__file__] alone, not of the cwd, [sys.argv] or the filesystem. *)
Theorem C3_ssh_path_is_P_bin_ssh (st : state) :
  ssh_path st =
  (Ok (dirname (mod_file st) ++ sep_after (dirname (mod_file st)) ++ "bin/ssh"), st).
Proof. exact (ssh_path_eq st). Qed.

(** C4: the argument vector of the replaced process is the binary path
    followed by [sys.argv[1:]] element for element, as a list (no shell). *)
Theorem C4_argv_forwarded_verbatim (st : state) (p : string)
    (args : list string) (envp : list (string * string))
    (Hrep : fst (main st) = Replaced p args envp) :
  args = p :: skipn 1 (sys_argv st) /\
  List.length args = S (List.length (sys_argv st) - 1).
Proof.
  rewrite main_eq in Hrep. unfold main_result in Hrep.
  destruct (fs st (resolve st (binary_of (mod_file st)))) as [i|];
    [|discriminate].
  destruct (kind_eqb (i_kind i) Regular); [|discriminate].
  destruct (i_exec i); [discriminate|].
  injection Hrep as <- <- <-. split; [reflexivity|].
  destruct (sys_argv st) as [|a l]; simpl; [reflexivity|].
  now rewrite Nat.sub_0_r.
Qed.

(** Witness of C4: arguments with spaces and shell metacharacters. *)
Lemma C4_argv_forwarded_verbatim_witness :
  fst (main (Scenario.at_opt_tool
               (Scenario.fs_with "/opt/tool/bin/ssh" Scenario.good_binary)
               ["a b"; "$(id); ls | cat > x"; "*"]))
  = Replaced "/opt/tool/bin/ssh" ["/opt/tool/bin/ssh"; "a b"; "$(id); ls | cat > x"; "*"]
      [("PATH", "/usr/bin:/bin")] /\
  ["/opt/tool/bin/ssh"; "a b"; "$(id); ls | cat > x"; "*"] =
  "/opt/tool/bin/ssh" :: ["a b"; "$(id); ls | cat > x"; "*"] /\
  List.length ["/opt/tool/bin/ssh"; "a b"; "$(id); ls | cat > x"; "*"] = 4.
Proof.
  split; [vm_compute; reflexivity|].
  apply (C4_argv_forwarded_verbatim
           (Scenario.at_opt_tool (Scenario.fs_with "/opt/tool/bin/ssh" Scenario.good_binary)
              ["a b"; "$(id); ls | cat > x"; "*"])
           "/opt/tool/bin/ssh" _ [("PATH", "/usr/bin:/bin")]).
  vm_compute. reflexivity.
Defined.

(** C5 (counterexample): with a regular but non-executable [bin/ssh] the
    launcher ends on a failure other than the [MissingBinary] path: [isfile]
    holds, nothing is printed by [main], and [os.execvp] raises an uncaught
    [OSError], so the interpreter ends the process with status 1. *)
Lemma C5_other_failure_path :
  fst (isfile "/opt/tool/bin/ssh" Scenario.unexec_at_opt_tool) = Ok true /\
  main Scenario.unexec_at_opt_tool =
  (Raise (OSError EACCES), Scenario.unexec_at_opt_tool) /\
  exists st', run_toplevel main Scenario.unexec_at_opt_tool = Exit 1 st'.
Proof.
  split; [vm_compute; reflexivity|]. split; [vm_compute; reflexivity|].
  eexists. vm_compute. reflexivity.
Qed.

(** C5 (amended): [MissingBinary] is the only condition [main] checks:
    either the path is not a regular file and [main] prints the diagnostic
    and raises [SystemExit(1)], or it is one and [main] is exactly the call
    [os.execvp(binary, [binary] + sys.argv[1:])], which replaces the process
    or raises, uncaught, the [OSError] with the errno [execve] returned. *)
Theorem C5_single_checked_error (st : state) (b : string)
    (Hb : fst (ssh_path st) = Ok b) :
  (fst (isfile b st) = Ok false /\
   main st = (Raise (SystemExit 1), set_err st (err st ++ missing_msg b ++ nl))) \/
  (fst (isfile b st) = Ok true /\
   main st = execvp b ([b] ++ skipn 1 (sys_argv st)) st /\
   exists i, fs st (resolve st b) = Some i /\ i_kind i = Regular /\
     match i_exec i with
     | None => main st = (Replaced b (b :: skipn 1 (sys_argv st)) (environ st), st)
     | Some en => main st = (Raise (OSError en), st)
     end).
Proof.
  destruct (fs st (resolve st b)) as [i|] eqn:Hfs.
  - destruct (i_kind i) eqn:Hk.
    + assert (Hp : fst (isfile b st) = Ok true)
        by (unfold isfile; simpl; now rewrite Hfs, Hk).
      right. split; [exact Hp|]. split; [exact (main_present st b Hb Hp)|].
      exists i. split; [reflexivity|]. split; [exact Hk|].
      destruct (i_exec i) as [en|] eqn:Hx.
      * exact (main_exec_fails st b i en Hb Hfs Hk Hx).
      * exact (main_exec_ok st b i Hb Hfs Hk Hx).
    + assert (Hm : fst (isfile b st) = Ok false)
        by (unfold isfile; simpl; now rewrite Hfs, Hk).
      left. split; [exact Hm | exact (main_missing st b Hb Hm)].
    + assert (Hm : fst (isfile b st) = Ok false)
        by (unfold isfile; simpl; now rewrite Hfs, Hk).
      left. split; [exact Hm | exact (main_missing st b Hb Hm)].
  - assert (Hm : fst (isfile b st) = Ok false)
      by (unfold isfile; simpl; now rewrite Hfs).
    left. split; [exact Hm | exact (main_missing st b Hb Hm)].
Qed.

(** Witness of C5: a [bin/ssh] built for another architecture at
    [/opt/tool]. *)
Lemma C5_single_checked_error_witness :
  let S := Scenario.foreign_at_opt_tool in
  let b := "/opt/tool/bin/ssh" in
  fst (ssh_path S) = Ok b /\
  ((fst (isfile b S) = Ok false /\
    main S = (Raise (SystemExit 1), set_err S (err S ++ missing_msg b ++ nl))) \/
   (fst (isfile b S) = Ok true /\
    main S = execvp b ([b] ++ skipn 1 (sys_argv S)) S /\
    exists i, fs S (resolve S b) = Some i /\ i_kind i = Regular /\
      match i_exec i with
      | None => main S = (Replaced b (b :: skipn 1 (sys_argv S)) (environ S), S)
      | Some en => main S = (Raise (OSError en), S)
      end)).
Proof.
  split; [vm_compute; reflexivity|].
  exact (C5_single_checked_error Scenario.foreign_at_opt_tool "/opt/tool/bin/ssh"
           ltac:(vm_compute; reflexivity)).
Defined.

(** C6: [main] never returns normally: it ends in an exception or in the
    replaced image, and the process either runs the new image or exits with
    a non-zero status. *)
Theorem C6_main_never_returns (st : state) :
  match fst (main st) with Ok _ => False | _ => True end /\
  match run_toplevel main st with
  | Image _ _ _ _ => True
  | Exit n _ => n <> 0%Z
  end.
Proof.
  unfold run_toplevel. rewrite main_eq. unfold main_result.
  destruct (fs st (resolve st (binary_of (mod_file st)))) as [i|].
  - destruct (kind_eqb (i_kind i) Regular); [destruct (i_exec i)|];
      simpl; split; solve [exact I | discriminate].
  - simpl. split; [exact I | discriminate].
Qed.

(** C7: two evaluations of [ssh_path] with the same [__file__] agree, and
    the path [main] hands to [execvp] is the one [ssh_path] computed. *)
Theorem C7_ssh_path_deterministic (st1 st2 : state)
    (Hfile : mod_file st1 = mod_file st2) :
  fst (ssh_path st1) = fst (ssh_path st2) /\
  match fst (main st1) with
  | Replaced p _ _ => fst (ssh_path st1) = Ok p
  | _ => True
  end.
Proof.
  rewrite !ssh_path_eq, Hfile. split; [reflexivity|].
  rewrite main_eq. unfold main_result.
  destruct (fs st1 (resolve st1 (binary_of (mod_file st1)))) as [i|];
    [|exact I].
  destruct (kind_eqb (i_kind i) Regular); [destruct (i_exec i)|]; simpl;
    solve [exact I | now rewrite Hfile].
Qed.

(** Witness of C7: same [__file__], different cwd, arguments and files. *)
Lemma C7_ssh_path_deterministic_witness :
  fst (ssh_path (Scenario.at_opt_tool Scenario.no_files ["-V"])) =
  fst (ssh_path (mk_state "/opt/tool/__init__.py" [] "/tmp" []
                   (Scenario.fs_with "/opt/tool/bin/ssh" Scenario.good_binary) "" "")) /\
  match fst (main (Scenario.at_opt_tool Scenario.no_files ["-V"])) with
  | Replaced p _ _ => fst (ssh_path (Scenario.at_opt_tool Scenario.no_files ["-V"])) = Ok p
  | _ => True
  end.
Proof.
  exact (C7_ssh_path_deterministic
           (Scenario.at_opt_tool Scenario.no_files ["-V"])
           (mk_state "/opt/tool/__init__.py" [] "/tmp" []
              (Scenario.fs_with "/opt/tool/bin/ssh" Scenario.good_binary) "" "")
           eq_refl).
Defined.

(** C8 (counterexample): installed under a directory whose name holds a
    newline, the diagnostic spans two lines of stderr. *)
Lemma C8_diagnostic_two_lines :
  fst (main Scenario.at_newline_dir) = Raise (SystemExit 1) /\
  count_nl (err (snd (main Scenario.at_newline_dir))) = 2.
Proof. split; vm_compute; reflexivity. Qed.

(** C8 (amended): on the [MissingBinary] path [main] makes exactly one
    [print] to stderr, the diagnostic naming the path followed by one
    newline; it holds one newline more than the path, so it is one line
    whenever the path has none. *)
Theorem C8_single_diagnostic_print (st : state) (b : string)
    (Hb : fst (ssh_path st) = Ok b)
    (Hmiss : fst (isfile b st) = Ok false) :
  err (snd (main st)) = err st ++ missing_msg b ++ nl /\
  count_nl (missing_msg b ++ nl) = S (count_nl b).
Proof.
  rewrite (main_missing st b Hb Hmiss). split; [reflexivity|].
  unfold missing_msg. rewrite str_app_assoc, !count_nl_app. simpl. lia.
Qed.

(** Witness of C8: [/opt/tool] without [bin/ssh]. *)
Lemma C8_single_diagnostic_print_witness :
  err (snd (main Scenario.missing_at_opt_tool)) =
  missing_msg "/opt/tool/bin/ssh" ++ nl /\
  count_nl (missing_msg "/opt/tool/bin/ssh" ++ nl) = 1.
Proof.
  exact (C8_single_diagnostic_print Scenario.missing_at_opt_tool "/opt/tool/bin/ssh"
           ltac:(vm_compute; reflexivity) ltac:(vm_compute; reflexivity)).
Defined.

(** C9: when [bin/ssh] is a regular file that [execve] refuses, [main]
    lets the [OSError] of [os.execvp], with the errno of [execve], propagate:
    it prints nothing (the state is unchanged) and raises no [SystemExit]. *)
Theorem C9_exec_failure_propagates (st : state) (b : string) (i : inode) (en : Z)
    (Hb : fst (ssh_path st) = Ok b)
    (Hfs : fs st (resolve st b) = Some i)
    (Hreg : i_kind i = Regular) (Hrefused : i_exec i = Some en) :
  main st = (Raise (OSError en), st).
Proof. exact (main_exec_fails st b i en Hb Hfs Hreg Hrefused). Qed.

(** Witness of C9: a [bin/ssh] for another architecture ([ENOEXEC]). *)
Lemma C9_exec_failure_propagates_witness :
  main Scenario.foreign_at_opt_tool =
  (Raise (OSError ENOEXEC), Scenario.foreign_at_opt_tool).
Proof.
  exact (C9_exec_failure_propagates Scenario.foreign_at_opt_tool "/opt/tool/bin/ssh"
           Scenario.foreign_binary ENOEXEC
           ltac:(vm_compute; reflexivity) ltac:(vm_compute; reflexivity)
           eq_refl eq_refl).
Defined.

(** C10: on the [MissingBinary] path the only effects of [main] are the
    stderr text and [SystemExit(1)]: stdout, the filesystem, the
    environment, the cwd, [sys.argv] and [__file__] are unchanged. *)
Theorem C10_missing_binary_frame (st : state) (b : string)
    (Hb : fst (ssh_path st) = Ok b)
    (Hmiss : fst (isfile b st) = Ok false) :
  fst (main st) = Raise (SystemExit 1) /\
  out (snd (main st)) = out st /\
  fs (snd (main st)) = fs st /\
  environ (snd (main st)) = environ st /\
  cwd (snd (main st)) = cwd st /\
  sys_argv (snd (main st)) = sys_argv st /\
  mod_file (snd (main st)) = mod_file st /\
  err (snd (main st)) = err st ++ missing_msg b ++ nl.
Proof.
  rewrite (main_missing st b Hb Hmiss). simpl.
  repeat split; reflexivity.
Qed.

(** Witness of C10: [/opt/tool] without [bin/ssh]. *)
Lemma C10_missing_binary_frame_witness :
  fst (main Scenario.missing_at_opt_tool) = Raise (SystemExit 1) /\
  out (snd (main Scenario.missing_at_opt_tool)) = "" /\
  fs (snd (main Scenario.missing_at_opt_tool)) = Scenario.no_files /\
  environ (snd (main Scenario.missing_at_opt_tool)) = [("PATH", "/usr/bin:/bin")] /\
  cwd (snd (main Scenario.missing_at_opt_tool)) = "/home/user" /\
  sys_argv (snd (main Scenario.missing_at_opt_tool)) = ["ssh-loee"] /\
  mod_file (snd (main Scenario.missing_at_opt_tool)) = "/opt/tool/__init__.py" /\
  err (snd (main Scenario.missing_at_opt_tool)) = "" ++ missing_msg "/opt/tool/bin/ssh" ++ nl.
Proof.
  exact (C10_missing_binary_frame Scenario.missing_at_opt_tool "/opt/tool/bin/ssh"
           ltac:(vm_compute; reflexivity) ltac:(vm_compute; reflexivity)).
Defined.

(** ** Further properties of the launcher *)

Lemma rfind_aux_ge (s : string) (pos acc : nat) :
  acc <= pos -> acc <= rfind_sep_end_aux s pos acc.
Proof.
  revert pos acc. induction s as [|c s IH]; intros pos acc H; simpl; [lia|].
  destruct (is_sep c).
  - specialize (IH (S pos) (S pos) (le_n _)). lia.
  - apply IH. lia.
Qed.

Lemma rfind_aux_nosep (s : string) (pos acc : nat) :
  has_sep s = false -> rfind_sep_end_aux s pos acc = acc.
Proof.
  unfold has_sep. revert pos acc.
  induction s as [|c s IH]; intros pos acc H; simpl in *; [reflexivity|].
  apply orb_false_iff in H as [Hc Hs]. rewrite Hc. now apply IH.
Qed.

Lemma all_sep_false_nonsep (h : string) :
  all_sep h = false ->
  existsb (fun c => negb (is_sep c)) (list_ascii_of_string h) = true.
Proof.
  induction h as [|c h IH]; simpl; [discriminate|].
  destruct (is_sep c); simpl; [exact IH | reflexivity].
Qed.

Lemma existsb_rev_eq {A} (f : A -> bool) (l : list A) :
  existsb f (rev l) = existsb f l.
Proof.
  induction l as [|a l IH]; simpl; [reflexivity|].
  rewrite existsb_app, IH. simpl. now rewrite orb_false_r, orb_comm.
Qed.

Lemma skip_seps_app (l x : list ascii) :
  existsb (fun c => negb (is_sep c)) l = true ->
  skip_seps (l ++ x) = (skip_seps l ++ x)%list.
Proof.
  induction l as [|c l IH]; simpl; [discriminate|].
  destruct (is_sep c); simpl; [exact IH | reflexivity].
Qed.

(** [dirname] of an absolute path is absolute. *)
Lemma dirname_absolute (p : string) :
  startswith_sep p = true -> startswith_sep (dirname p) = true.
Proof.
  destruct p as [|c p']; simpl; [discriminate|]. intros Hc.
  unfold dirname, rfind_sep_end. simpl. rewrite Hc.
  pose proof (rfind_aux_ge p' 1 1 (le_n _)) as Hge.
  destruct (rfind_sep_end_aux p' 1 1) as [|k]; [lia|]. simpl.
  rewrite Hc. simpl.
  destruct (all_sep (substring 0 k p')) eqn:Ha; simpl; [exact Hc|].
  unfold rstrip_sep. simpl.
  rewrite skip_seps_app
    by (rewrite existsb_rev_eq; now apply all_sep_false_nonsep).
  rewrite rev_app_distr. simpl. exact Hc.
Qed.

Lemma resolve_absolute (st : state) (p : string) :
  startswith_sep p = true -> resolve st p = p.
Proof. unfold resolve. now intros ->. Qed.

Lemma binary_of_absolute (f : string) :
  startswith_sep f = true -> startswith_sep (binary_of f) = true.
Proof.
  intros Hf. apply dirname_absolute in Hf. unfold binary_of.
  destruct (dirname f); [discriminate|]. exact Hf.
Qed.

Lemma _bin_dir_eq (st : state) :
  _bin_dir st =
  (Ok (dirname (mod_file st) ++ sep_after (dirname (mod_file st)) ++ "bin"), st).
Proof.
  unfold _bin_dir, bind, get_file, ret, join. cbn [fold_left].
  now rewrite (join_one_rel _ "bin") by reflexivity.
Qed.

(** [_bin_dir] and [ssh_path] agree: the binary is the entry [ssh] directly
    inside the directory [_bin_dir] returns. *)
Theorem ssh_path_in_bin_dir (st : state) (d b : string)
    (Hd : fst (_bin_dir st) = Ok d) (Hb : fst (ssh_path st) = Ok b) :
  dirname b = d /\ b = d ++ "/ssh".
Proof.
  rewrite _bin_dir_eq in Hd. apply ssh_path_value in Hb.
  simpl in Hd. injection Hd as <-. subst b.
  rewrite binary_of_shape, dirname_bin_ssh, !str_app_assoc.
  split; reflexivity.
Qed.

Lemma ssh_path_in_bin_dir_witness :
  dirname "/opt/tool/bin/ssh" = "/opt/tool/bin" /\
  "/opt/tool/bin/ssh" = "/opt/tool/bin" ++ "/ssh".
Proof.
  exact (ssh_path_in_bin_dir Scenario.missing_at_opt_tool "/opt/tool/bin"
           "/opt/tool/bin/ssh" ltac:(vm_compute; reflexivity)
           ltac:(vm_compute; reflexivity)).
Defined.

(** With an absolute [__file__] the binary path is absolute. *)
Theorem ssh_path_absolute (st : state) (b : string)
    (Habs : startswith_sep (mod_file st) = true)
    (Hb : fst (ssh_path st) = Ok b) :
  startswith_sep b = true.
Proof. apply ssh_path_value in Hb. subst b. now apply binary_of_absolute. Qed.

Lemma ssh_path_absolute_witness : startswith_sep "/opt/tool/bin/ssh" = true.
Proof.
  exact (ssh_path_absolute Scenario.missing_at_opt_tool "/opt/tool/bin/ssh"
           eq_refl ltac:(vm_compute; reflexivity)).
Defined.

(** With an absolute [__file__], [main] does the same in every working
    directory. *)
Theorem main_cwd_independent (st : state) (c : string)
    (Habs : startswith_sep (mod_file st) = true) :
  main (with_cwd st c) = (fst (main st), with_cwd (snd (main st)) c).
Proof.
  rewrite !main_eq. unfold main_result. cbn [mod_file fs with_cwd].
  pose proof (binary_of_absolute _ Habs) as Hb.
  rewrite !resolve_absolute by exact Hb.
  destruct (fs st (binary_of (mod_file st))) as [i|];
    [destruct (kind_eqb (i_kind i) Regular); [destruct (i_exec i)|]|];
    reflexivity.
Qed.

Lemma main_cwd_independent_witness :
  main (with_cwd Scenario.missing_at_opt_tool "/tmp") =
  (fst (main Scenario.missing_at_opt_tool),
   with_cwd (snd (main Scenario.missing_at_opt_tool)) "/tmp").
Proof. exact (main_cwd_independent Scenario.missing_at_opt_tool "/tmp" eq_refl). Defined.

(** [main] reads the environment only to hand it to the new image: [PATH]
    is never searched, and changing [os.environ] changes nothing else. *)
Theorem main_environ_passthrough (st : state) (e : list (string * string)) :
  main (with_environ st e) =
  (match fst (main st) with
   | Replaced p a _ => Replaced p a e
   | r => r
   end, with_environ (snd (main st)) e).
Proof.
  rewrite !main_eq. unfold main_result. cbn [mod_file fs with_environ].
  unfold resolve. cbn [cwd with_environ].
  destruct (fs st _) as [i|];
    [destruct (kind_eqb (i_kind i) Regular); [destruct (i_exec i)|]|];
    reflexivity.
Qed.

(** When [sys.argv] holds at most the program name, the binary is run with
    the argument vector [[binary]] alone. *)
Theorem main_no_arguments (st : state) (p : string) (a : list string)
    (envp : list (string * string))
    (Hlen : List.length (sys_argv st) <= 1)
    (Hrep : fst (main st) = Replaced p a envp) :
  a = [p].
Proof.
  rewrite main_eq in Hrep. unfold main_result in Hrep.
  destruct (fs st _) as [i|]; [|discriminate].
  destruct (kind_eqb (i_kind i) Regular); [|discriminate].
  destruct (i_exec i); [discriminate|].
  injection Hrep as <- <- _.
  destruct (sys_argv st) as [|x [|y l]]; simpl in *; [reflexivity | reflexivity | lia].
Qed.

Lemma main_no_arguments_witness :
  fst (main (Scenario.at_opt_tool
               (Scenario.fs_with "/opt/tool/bin/ssh" Scenario.good_binary) []))
  = Replaced "/opt/tool/bin/ssh" ["/opt/tool/bin/ssh"] [("PATH", "/usr/bin:/bin")] /\
  ["/opt/tool/bin/ssh"] = ["/opt/tool/bin/ssh"].
Proof.
  split; [vm_compute; reflexivity|].
  exact (main_no_arguments
           (Scenario.at_opt_tool (Scenario.fs_with "/opt/tool/bin/ssh" Scenario.good_binary) [])
           "/opt/tool/bin/ssh" _ [("PATH", "/usr/bin:/bin")]
           ltac:(simpl; lia) ltac:(vm_compute; reflexivity)).
Defined.

(** The only exceptions out of [main] are [SystemExit(1)] and the
    [OSError] carrying the errno [execve] returned for the regular file that
    passed [isfile]: never the [ValueError]s of [os.execv] (empty argv or
    empty [argv[0]]). *)
Theorem main_raises_only (st : state) (b : string) (e : exn)
    (Hb : fst (ssh_path st) = Ok b)
    (Hr : fst (main st) = Raise e) :
  e = SystemExit 1 \/
  exists i en, fs st (resolve st b) = Some i /\ i_kind i = Regular /\
               i_exec i = Some en /\ e = OSError en.
Proof.
  apply ssh_path_value in Hb. subst b.
  rewrite main_eq in Hr. unfold main_result in Hr.
  destruct (fs st _) as [i|] eqn:Hfs.
  - destruct (i_kind i) eqn:Hk; simpl in Hr.
    + destruct (i_exec i) as [en|] eqn:Hx; simpl in Hr; [|discriminate].
      injection Hr as <-. right. exists i, en. now repeat split.
    + injection Hr as <-. now left.
    + injection Hr as <-. now left.
  - simpl in Hr. injection Hr as <-. now left.
Qed.

Lemma main_raises_only_witness :
  fst (main Scenario.foreign_at_opt_tool) = Raise (OSError ENOEXEC) /\
  (OSError ENOEXEC = SystemExit 1 \/
   exists i en, fs Scenario.foreign_at_opt_tool
                  (resolve Scenario.foreign_at_opt_tool "/opt/tool/bin/ssh") = Some i /\
                i_kind i = Regular /\ i_exec i = Some en /\ OSError ENOEXEC = OSError en).
Proof.
  split; [vm_compute; reflexivity|].
  exact (main_raises_only Scenario.foreign_at_opt_tool "/opt/tool/bin/ssh"
           (OSError ENOEXEC) ltac:(vm_compute; reflexivity)
           ltac:(vm_compute; reflexivity)).
Defined.

(** A [__file__] without a directory part gives the relative path
    [bin/ssh], looked up from the working directory. *)
Theorem ssh_path_relative_file (st : state)
    (Hnosep : has_sep (mod_file st) = false) :
  ssh_path st = (Ok "bin/ssh", st) /\
  resolve st "bin/ssh" = join (cwd st) ["bin/ssh"].
Proof.
  rewrite ssh_path_eq. unfold binary_of, dirname, rfind_sep_end.
  rewrite rfind_aux_nosep by exact Hnosep.
  replace (substring 0 0 (mod_file st)) with "" by (destruct (mod_file st); reflexivity).
  split; reflexivity.
Qed.

Lemma ssh_path_relative_file_witness :
  ssh_path (mk_state "__init__.py" [] "/srv/pkg" [] Scenario.no_files "" "")
  = (Ok "bin/ssh", mk_state "__init__.py" [] "/srv/pkg" [] Scenario.no_files "" "") /\
  resolve (mk_state "__init__.py" [] "/srv/pkg" [] Scenario.no_files "" "") "bin/ssh"
  = "/srv/pkg/bin/ssh".
Proof.
  exact (ssh_path_relative_file
           (mk_state "__init__.py" [] "/srv/pkg" [] Scenario.no_files "" "") eq_refl).
Defined.

(** [main] never writes to stdout. *)
Theorem main_no_stdout (st : state) : out (snd (main st)) = out st.
Proof.
  rewrite main_eq. unfold main_result.
  destruct (fs st _) as [i|];
    [destruct (kind_eqb (i_kind i) Regular); [destruct (i_exec i)|]|];
    reflexivity.
Qed.

(** Outside the [MissingBinary] path [main] leaves the process state
    exactly as it found it: nothing is printed before [execvp]. *)
Theorem main_silent_unless_missing (st : state)
    (Hnot : fst (main st) <> Raise (SystemExit 1)) :
  snd (main st) = st.
Proof.
  rewrite main_eq in *. unfold main_result in *.
  destruct (fs st _) as [i|];
    [destruct (kind_eqb (i_kind i) Regular); [destruct (i_exec i)|]|];
    simpl in *; solve [reflexivity | now exfalso; apply Hnot].
Qed.

Lemma main_silent_unless_missing_witness :
  snd (main Scenario.unexec_at_opt_tool) = Scenario.unexec_at_opt_tool.
Proof.
  exact (main_silent_unless_missing Scenario.unexec_at_opt_tool
           ltac:(vm_compute; discriminate)).
Defined.
